(** * Investor dashboard: binding request workflow and trader statistics

    A shallow embedding of the [InvestorDashboard] component
    (src/unnamed/part_001): the handlers [checkExistingBinding],
    [fetchTraderData] and [handleBindingRequest], the component state they
    update, and the backing store they talk to.

    Conventions
    - JavaScript strings are modelled as ASCII [string]s.
    - JavaScript numbers are IEEE 754 binary64 values: prices, quantities,
      profit/loss and the totals are primitive [float]s, with the kernel's
      addition and multiplication.  The trade count is an array length and
      is kept as an integer; creation times are integers.
    - The store itself (tables, constraint, query semantics) is not part of
      the sources; it is modelled in [Store] from the specification.
    - An [await]ed store request either resolves to a reply [{data, error}]
      or rejects (throws); which one happens is decided by a script of
      transport outcomes carried by the world, an exhausted script meaning
      that every further request is delivered. *)

From Stdlib Require Import String Ascii List ZArith Bool Lia Sorted Permutation.
From Stdlib Require Import Floats.
Import ListNotations.
Local Open Scope string_scope.
Local Open Scope Z_scope.

(* ===================================================================== *)
(** ** JavaScript string helpers used by the handlers *)
(* ===================================================================== *)

Module JsString.

(** White space removed by [String.prototype.trim] (ASCII range):
    TAB, LF, VT, FF, CR and SPACE. *)
Definition is_space (c : ascii) : bool :=
  let n := N_of_ascii c in
  ((9 <=? n)%N && (n <=? 13)%N) || (n =? 32)%N.

Definition is_lower (c : ascii) : bool :=
  let n := N_of_ascii c in (97 <=? n)%N && (n <=? 122)%N.

Definition is_upper (c : ascii) : bool :=
  let n := N_of_ascii c in (65 <=? n)%N && (n <=? 90)%N.

Definition is_digit (c : ascii) : bool :=
  let n := N_of_ascii c in (48 <=? n)%N && (n <=? 57)%N.

Definition toUpperChar (c : ascii) : ascii :=
  if is_lower c then ascii_of_N (N_of_ascii c - 32) else c.

Definition toLowerChar (c : ascii) : ascii :=
  if is_upper c then ascii_of_N (N_of_ascii c + 32) else c.

Fixpoint map_chars (f : ascii -> ascii) (s : string) : string :=
  match s with
  | EmptyString => EmptyString
  | String c r => String (f c) (map_chars f r)
  end.

(** [s.toUpperCase()] *)
Definition toUpperCase (s : string) : string := map_chars toUpperChar s.

(** [s.toLowerCase()] *)
Definition toLowerCase (s : string) : string := map_chars toLowerChar s.

Fixpoint trimStart (s : string) : string :=
  match s with
  | EmptyString => EmptyString
  | String c r => if is_space c then trimStart r else s
  end.

Fixpoint trimEnd (s : string) : string :=
  match s with
  | EmptyString => EmptyString
  | String c r =>
      match trimEnd r with
      | EmptyString => if is_space c then EmptyString else String c EmptyString
      | r' => String c r'
      end
  end.

(** [s.trim()] *)
Definition trim (s : string) : string := trimEnd (trimStart s).

(** JavaScript truthiness of a string: only the empty string is falsy. *)
Definition truthy (s : string) : bool :=
  match s with EmptyString => false | _ => true end.

Fixpoint all_chars (p : ascii -> bool) (s : string) : bool :=
  match s with
  | EmptyString => true
  | String c r => p c && all_chars p r
  end.

(** Two strings that differ at most in the case of their letters. *)
Definition same_ignoring_case (a b : string) : bool :=
  String.eqb (toLowerCase a) (toLowerCase b).

End JsString.

(* ===================================================================== *)
(** ** Data model: rows of the three tables *)
(* ===================================================================== *)

Inductive Role := Trader | Investor.

Definition Role_eqb (a b : Role) : bool :=
  match a, b with
  | Trader, Trader | Investor, Investor => true
  | _, _ => false
  end.

Record User := mkUser {
  id : string;
  username : string;
  role : Role;
  currency : string;
  trader_uid : option string   (* present for traders only *)
}.

Inductive Status := pending | approved.

Record Binding := mkBinding {
  trader_id : string;
  investor_id : string;
  status : Status
}.

Record Trade := mkTrade {
  trade_id : string;
  user_id : string;
  asset : string;
  category : string;
  price : float;
  quantity : float;
  profit_loss : option float;  (* null for open positions *)
  created_at : Z
}.

(** Error object of a store reply: [error.code], [error.message]. *)
Record StoreError := mkError {
  code : string;
  message : string
}.

(** The [{ data, error }] object a store request resolves to. *)
Record Reply (A : Type) := mkReply {
  data : option A;
  error : option StoreError
}.
Arguments mkReply {A} _ _.
Arguments data {A} _.
Arguments error {A} _.

Definition ok {A} (a : A) : Reply A := mkReply (Some a) None.
Definition no_row {A} : Reply A := mkReply None None.
Definition failed {A} (e : StoreError) : Reply A := mkReply None (Some e).

(* ===================================================================== *)
(** ** The backing store *)
(* ===================================================================== *)

Module Store.

(** Modelled from the spec: the three tables the two components query
    (users, bindings, trades); the schema is not part of the sources. *)
Record t := mk {
  users : list User;
  bindings : list Binding;
  trades : list Trade
}.

(** Modelled from the spec: the error raised by the uniqueness constraint
    over [investor_id] of the bindings table; the handler recognises it by
    its code 23505. *)
Definition unique_violation : StoreError :=
  mkError "23505" "duplicate key value violates unique constraint".

(** Modelled from the spec: the error of a single-row query that matches
    several rows. *)
Definition multiple_rows : StoreError :=
  mkError "PGRST116" "JSON object requested, multiple (or no) rows returned".

(** Modelled from the spec: the client library's [.maybeSingle()], used by
    the queries that "expect 0 or 1 row": no row is a null [data] without
    error, one row is that row, several rows are an error. *)
Definition maybeSingle {A} (rows : list A) : Reply A :=
  match rows with
  | [] => no_row
  | [r] => ok r
  | _ => failed multiple_rows
  end.

(** Modelled from the spec: the filter [trader_uid = code]; a user without
    identifier matches no code. *)
Definition uid_is (c : string) (u : User) : bool :=
  match trader_uid u with
  | Some uid => String.eqb uid c
  | None => false
  end.

(** Modelled from the spec: "Query users where trader_uid = code AND
    role = 'trader' (expect 0 or 1 row)"; the rows matched. *)
Definition traders_with_uid (c : string) (s : t) : list User :=
  filter (fun u => uid_is c u && Role_eqb (role u) Trader) (users s).

(** Modelled from the spec: the same query, answered through
    [.maybeSingle()]; a read leaves the store as it is. *)
Definition select_trader (c : string) (s : t) : Reply User * t :=
  (maybeSingle (traders_with_uid c s), s).

(** Modelled from the spec: "Query bindings where investor_id = X
    (expect 0 or 1 row)"; the rows matched. *)
Definition bindings_of (inv : string) (s : t) : list Binding :=
  filter (fun b => String.eqb (investor_id b) inv) (bindings s).

(** Modelled from the spec: a binding row joined with the user row of its
    trader, the [users!bindings_trader_id_fkey] part of the select. *)
Definition joined_trader (s : t) (b : Binding) : Binding * option User :=
  (b, find (fun u => String.eqb (id u) (trader_id b)) (users s)).

(** Modelled from the spec: the bindings query with its join, answered
    through [.maybeSingle()]. *)
Definition select_binding (inv : string) (s : t)
  : Reply (Binding * option User) * t :=
  (maybeSingle (map (joined_trader s) (bindings_of inv s)), s).

(** Modelled from the spec: "Insert into bindings {trader_id, investor_id}
    with default status pending, relying on a backing uniqueness
    constraint over investor_id".  A refused insert changes nothing. *)
Definition insert_binding (tid inv : string) (s : t) : Reply unit * t :=
  match bindings_of inv s with
  | [] => (no_row, mk (users s) (bindings s ++ [mkBinding tid inv pending]) (trades s))
  | _ :: _ => (failed unique_violation, s)
  end.

(** Modelled from the spec: "ordered by creation time descending", as an
    insertion sort on [created_at]. *)
Fixpoint insert_desc (x : Trade) (l : list Trade) : list Trade :=
  match l with
  | [] => [x]
  | h :: r =>
      if created_at h <=? created_at x then x :: l else h :: insert_desc x r
  end.

(** Modelled from the spec: the rows sorted newest first. *)
Definition order_desc (l : list Trade) : list Trade :=
  fold_right insert_desc [] l.

(** Modelled from the spec: the filter [user_id = traderId]. *)
Definition trades_of (tid : string) (s : t) : list Trade :=
  filter (fun tr => String.eqb (user_id tr) tid) (trades s).

(** Modelled from the spec: "Query trades where user_id = traderId,
    ordered by creation time descending". *)
Definition select_trades (tid : string) (s : t) : Reply (list Trade) * t :=
  (ok (order_desc (trades_of tid s)), s).

End Store.

(* ===================================================================== *)
(** ** Component state, outputs and the world the handlers run in *)
(* ===================================================================== *)

Inductive BindingStatus := bs_none | bs_pending | bs_approved.

(** [binding.status as 'pending' | 'approved'] *)
Definition of_status (s : Status) : BindingStatus :=
  match s with pending => bs_pending | approved => bs_approved end.

Record TraderStats := mkStats {
  totalTrades : Z;             (* [trades.length] *)
  totalValue : float;
  totalPnL : float
}.

(** The [useState] cells of the component. *)
Record View := mkView {
  traderUid : string;
  boundTrader : option User;
  bindingStatus : BindingStatus;
  traderStats : TraderStats;
  recentTrades : list Trade;
  loading : bool;
  submitting : bool
}.

(** The initial values given to [useState]. *)
Definition initial_view : View :=
  mkView "" None bs_none (mkStats 0 0 0) [] true false.

(** Argument of [toast(...)]; [variant] is absent on the success toast. *)
Record Toast := mkToast {
  title : string;
  description : string;
  variant : option string
}.

(** Requests sent to the store over the network. *)
Inductive Request :=
| SelectBinding (inv : string)
| SelectTrades (tid : string)
| SelectTrader (uid : string)
| InsertBinding (tid inv : string).

(** What the transport does with one request. *)
Inductive Transport :=
| Delivered                     (* the store runs the request and replies *)
| ErrorReply (e : StoreError)   (* resolves to [{data: null, error: e}] *)
| Rejected (e : StoreError).    (* the awaited promise rejects with [e] *)

Record World := mkWorld {
  store : Store.t;
  transport : list Transport;   (* outcome of the next requests, in order *)
  requests : list Request;      (* requests issued so far, in order *)
  view : View;
  toasts : list Toast;          (* toasts shown so far, in order *)
  console : list (string * StoreError)  (* [console.error] calls *)
}.

(* ===================================================================== *)
(** ** A state-and-exception monad for the async handlers *)
(* ===================================================================== *)

Inductive Completion (A : Type) :=
| Normal (a : A)
| Throw (e : StoreError).
Arguments Normal {A} _.
Arguments Throw {A} _.

Definition M (A : Type) : Type := World -> Completion A * World.

Definition ret {A} (a : A) : M A := fun w => (Normal a, w).

Definition bind {A B} (m : M A) (k : A -> M B) : M B :=
  fun w =>
    match m w with
    | (Normal a, w') => k a w'
    | (Throw e, w') => (Throw e, w')
    end.

Definition throw {A} (e : StoreError) : M A := fun w => (Throw e, w).

(** [try { body } catch (error) { handler }] *)
Definition try_catch {A} (body : M A) (handler : StoreError -> M A) : M A :=
  fun w =>
    match body w with
    | (Normal a, w') => (Normal a, w')
    | (Throw e, w') => handler e w'
    end.

(** [... finally { fin }] *)
Definition finally {A} (body : M A) (fin : M unit) : M A :=
  fun w =>
    match body w with
    | (c, w') =>
        match fin w' with
        | (Normal _, w'') => (c, w'')
        | (Throw e, w'') => (Throw e, w'')
        end
    end.

Declare Scope js_scope.
Delimit Scope js_scope with js.
Notation "x <- m ;; k" := (bind m (fun x => k))
  (at level 100, m at next level, right associativity) : js_scope.
Notation "m ;; k" := (bind m (fun _ => k))
  (at level 100, right associativity) : js_scope.
Local Open Scope js_scope.

Definition get_view : M View := fun w => (Normal (view w), w).

Definition modify_view (f : View -> View) : M unit :=
  fun w => (Normal tt,
            mkWorld (store w) (transport w) (requests w) (f (view w))
                    (toasts w) (console w)).

Definition setTraderUid (s : string) : M unit :=
  modify_view (fun v => mkView s (boundTrader v) (bindingStatus v)
                          (traderStats v) (recentTrades v) (loading v) (submitting v)).

Definition setBoundTrader (u : option User) : M unit :=
  modify_view (fun v => mkView (traderUid v) u (bindingStatus v)
                          (traderStats v) (recentTrades v) (loading v) (submitting v)).

Definition setBindingStatus (b : BindingStatus) : M unit :=
  modify_view (fun v => mkView (traderUid v) (boundTrader v) b
                          (traderStats v) (recentTrades v) (loading v) (submitting v)).

Definition setTraderStats (s : TraderStats) : M unit :=
  modify_view (fun v => mkView (traderUid v) (boundTrader v) (bindingStatus v)
                          s (recentTrades v) (loading v) (submitting v)).

Definition setRecentTrades (l : list Trade) : M unit :=
  modify_view (fun v => mkView (traderUid v) (boundTrader v) (bindingStatus v)
                          (traderStats v) l (loading v) (submitting v)).

Definition setLoading (b : bool) : M unit :=
  modify_view (fun v => mkView (traderUid v) (boundTrader v) (bindingStatus v)
                          (traderStats v) (recentTrades v) b (submitting v)).

Definition setSubmitting (b : bool) : M unit :=
  modify_view (fun v => mkView (traderUid v) (boundTrader v) (bindingStatus v)
                          (traderStats v) (recentTrades v) (loading v) b).

Definition toast (t : Toast) : M unit :=
  fun w => (Normal tt,
            mkWorld (store w) (transport w) (requests w) (view w)
                    (toasts w ++ [t]) (console w)).

Definition console_error (label : string) (e : StoreError) : M unit :=
  fun w => (Normal tt,
            mkWorld (store w) (transport w) (requests w) (view w)
                    (toasts w) (console w ++ [(label, e)])).

(** [await supabase.from(...)...]: the request is recorded, the transport
    decides whether it is delivered, and a delivered request is run by the
    store. *)
Definition await {A} (rq : Request) (run : Store.t -> Reply A * Store.t)
  : M (Reply A) :=
  fun w =>
    let sent s :=
      mkWorld s (tl (transport w)) (requests w ++ [rq]) (view w)
              (toasts w) (console w) in
    match hd Delivered (transport w) with
    | Delivered =>
        let (r, s') := run (store w) in (Normal r, sent s')
    | ErrorReply e => (Normal (failed e), sent (store w))
    | Rejected e => (Throw e, sent (store w))
    end.

(* ===================================================================== *)
(** ** The handlers of [InvestorDashboard] *)
(* ===================================================================== *)

(** Falsy numbers of JavaScript: NaN and the two zeros. *)
Definition falsy_number (v : float) : bool := is_nan v || is_zero v.

(** [x || 0] on a nullable number: null and the falsy numbers give 0. *)
Definition or_zero (x : option float) : float :=
  match x with
  | Some v => if falsy_number v then 0%float else v
  | None => 0%float
  end.

(** The statistics computed from the rows of a successful ledger read. *)
Definition stats_of (trades : list Trade) : TraderStats :=
  let totalValue :=
    fold_left (fun sum trade => sum + price trade * quantity trade)%float
              trades 0%float in
  let totalPnL :=
    fold_left (fun sum trade => sum + or_zero (profit_loss trade))%float
              trades 0%float in
  mkStats (Z.of_nat (length trades)) totalValue totalPnL.

(** [trades.slice(0, 5)] *)
Definition recent_of (trades : list Trade) : list Trade := firstn 5 trades.

Definition fetchTraderData (traderId : string) : M unit :=
  try_catch
    (r <- await (SelectTrades traderId) (Store.select_trades traderId) ;;
     match data r with
     | Some trades =>
         (setTraderStats (stats_of trades) ;;
          setRecentTrades (recent_of trades))
     | None => ret tt
     end)
    (fun error => console_error "Error fetching trader data:" error).

Definition checkExistingBinding (profile : User) : M unit :=
  finally
    (try_catch
       (r <- await (SelectBinding (id profile))
                   (Store.select_binding (id profile)) ;;
        match data r with
        | Some (binding, joined) =>
            (setBindingStatus (of_status (status binding)) ;;
             setBoundTrader joined ;;
             match status binding with
             | approved => fetchTraderData (trader_id binding)
             | pending => ret tt
             end)
        | None => ret tt
        end)
       (fun error => console_error "Error checking binding:" error))
    (setLoading false).

Definition toast_enter_uid : Toast :=
  mkToast "Error" "Please enter a trader UID" (Some "destructive").

Definition toast_not_found : Toast :=
  mkToast "Trader not found" "Please check the trader UID and try again"
          (Some "destructive").

Definition toast_already_requested : Toast :=
  mkToast "Already requested" "You have already sent a request to this trader"
          (Some "destructive").

Definition toast_error (e : StoreError) : Toast :=
  mkToast "Error" (message e) (Some "destructive").

Definition toast_request_sent (trader : User) : Toast :=
  mkToast "Request sent!"
          ("Binding request sent to " ++ username trader
             ++ ". Please wait for approval.")
          None.

Definition handleBindingRequest (profile : User) : M unit :=
  v <- get_view ;;
  if negb (JsString.truthy (JsString.trim (traderUid v))) then
    toast toast_enter_uid
  else
    (setSubmitting true ;;
     finally
       (try_catch
          (r <- await
                  (SelectTrader (JsString.toUpperCase (JsString.trim (traderUid v))))
                  (Store.select_trader
                     (JsString.toUpperCase (JsString.trim (traderUid v)))) ;;
           match error r, data r with
           | None, Some trader =>
               (r' <- await (InsertBinding (id trader) (id profile))
                            (Store.insert_binding (id trader) (id profile)) ;;
                match error r' with
                | Some bindingError =>
                    if String.eqb (code bindingError) "23505" then
                      toast toast_already_requested
                    else
                      throw bindingError
                | None =>
                    (setBoundTrader (Some trader) ;;
                     setBindingStatus bs_pending ;;
                     setTraderUid "" ;;
                     toast (toast_request_sent trader))
                end)
           | _, _ => toast toast_not_found
           end)
          (fun error => toast (toast_error error)))
       (setSubmitting false)).

(** What the component renders for a given state. *)
Inductive Screen :=
| Skeleton
| BindingForm (uid : string) (disabled : bool)
| PendingCard (trader : option User)
| Dashboard (trader : option User) (stats : TraderStats) (recent : list Trade).

Definition render (v : View) : Screen :=
  if loading v then Skeleton
  else
    match bindingStatus v with
    | bs_none =>
        BindingForm (traderUid v)
          (submitting v || negb (JsString.truthy (JsString.trim (traderUid v))))
    | bs_pending => PendingCard (boundTrader v)
    | bs_approved => Dashboard (boundTrader v) (traderStats v) (recentTrades v)
    end.

(** Running a handler: the world it leaves behind. *)
Definition exec {A} (m : M A) (w : World) : World := snd (m w).

Definition completes {A} (m : M A) (w : World) : bool :=
  match fst (m w) with Normal _ => true | Throw _ => false end.

(** A world in which the component has just been mounted. *)
Definition mount (s : Store.t) (tr : list Transport) : World :=
  mkWorld s tr [] initial_view [] [].

(** The same world with another text in the trader UID input. *)
Definition type_uid (s : string) (w : World) : World := exec (setTraderUid s) w.

(* ===================================================================== *)
(** ** Notions used to state the properties *)
(* ===================================================================== *)

(** The rows a delivered ledger read returns for a trader. *)
Definition ledger (traderId : string) (s : Store.t) : list Trade :=
  Store.order_desc (Store.trades_of traderId s).

(** [newer_first a b]: [a] was created no earlier than [b]. *)
Definition newer_first (a b : Trade) : Prop := created_at b <= created_at a.

(** Following the spec's words: "standard floating-point summation" of a
    sequence of amounts, a running total started at zero and taken through
    the sequence in order. *)
Fixpoint running_total (acc : float) (amounts : list float) : float :=
  match amounts with
  | [] => acc
  | x :: rest => running_total (acc + x)%float rest
  end.

Definition float_sum (amounts : list float) : float :=
  running_total 0%float amounts.

(** Following the spec's words: "sum(price*quantity)" and
    "sum(profit_loss where present)", an absent value contributing zero. *)
Definition trade_value (t : Trade) : float := (price t * quantity t)%float.

Definition pnl_where_present (t : Trade) : float :=
  match profit_loss t with
  | Some p => p
  | None => 0%float
  end.

(** An amount a stored profit/loss can be: any number but NaN and the
    negative zero. *)
Definition ordinary_amount (p : float) : bool :=
  negb (is_nan p) && negb (Leibniz.eqb p neg_zero).

Definition ordinary_pnl (t : Trade) : bool :=
  match profit_loss t with
  | Some p => ordinary_amount p
  | None => true
  end.

(** The key [handleBindingRequest] looks the trader up with:
    [traderUid.trim().toUpperCase()]. *)
Definition entered_code (w : World) : string :=
  JsString.toUpperCase (JsString.trim (traderUid (view w))).

(** Following the spec's words: the trader identifier is a "fixed-length
    uppercase alphanumeric code", of "8-character" shape. *)
Definition well_formed_uid (s : string) : bool :=
  (String.length s =? 8)%nat
  && JsString.all_chars (fun c => JsString.is_upper c || JsString.is_digit c) s.

(** *** A small population used in the concrete runs *)

Definition alice : User := mkUser "u-alice" "alice" Trader "USD" (Some "ABC12345").
Definition bob : User := mkUser "u-bob" "bob" Investor "USD" None.

(** The ledger [{price:100,quantity:2,pnl:+10}, {price:50,quantity:1,pnl:-5}],
    the first entry being the most recent one. *)
Definition trade_a : Trade :=
  mkTrade "t-a" "u-alice" "BTC" "crypto" 100 2 (Some 10%float) 20.
Definition trade_b : Trade :=
  mkTrade "t-b" "u-alice" "ETH" "crypto" 50 1 (Some (-5)%float) 10.

(** No binding yet. *)
Definition open_store : Store.t :=
  Store.mk [alice; bob] [] [trade_b; trade_a].

(** Bob's request to alice is pending. *)
Definition pending_store : Store.t :=
  Store.mk [alice; bob] [mkBinding "u-alice" "u-bob" pending] [trade_b; trade_a].

(** Bob's request to alice has been approved. *)
Definition approved_store : Store.t :=
  Store.mk [alice; bob] [mkBinding "u-alice" "u-bob" approved] [trade_b; trade_a].

Definition unreachable : StoreError := mkError "" "Failed to fetch".

(** The dashboard is loaded twice (the profile object changes and the effect
    runs again); the second ledger read gets an error reply. *)
Definition reloaded_with_failed_read : World :=
  exec (checkExistingBinding bob)
    (exec (checkExistingBinding bob)
       (mount approved_store
          [Delivered; Delivered; Delivered; ErrorReply unreachable])).

(** A first load whose ledger read gets an error reply. *)
Definition first_load_with_failed_read : World :=
  exec (checkExistingBinding bob)
    (mount approved_store [Delivered; ErrorReply unreachable]).

(** *** Notions used by the further properties *)

(** [useEffect(() => { if (profile) checkExistingBinding(); }, [profile])] *)
Definition onProfile (profile : option User) : M unit :=
  match profile with
  | Some p => checkExistingBinding p
  | None => ret tt
  end.

(** Every request still to come is delivered. *)
Definition all_delivered (l : list Transport) : Prop :=
  Forall (fun t => t = Delivered) l.

(** The recent list is as long as the trade count allows, five at most. *)
Definition recent_matches_stats (v : View) : Prop :=
  length (recentTrades v) = Nat.min 5 (Z.to_nat (totalTrades (traderStats v))).

(** Three prices whose total depends on the order they are added in:
    2^53, 1 and 1. *)
Definition large_first : list Trade :=
  map (fun p => mkTrade "t" "u-alice" "BTC" "crypto" p 1 None 0)
      [9007199254740992%float; 1%float; 1%float].

Definition large_last : list Trade :=
  map (fun p => mkTrade "t" "u-alice" "BTC" "crypto" p 1 None 0)
      [1%float; 1%float; 9007199254740992%float].

(** No lower-case letter occurs in the string. *)
Definition no_lower (s : string) : bool :=
  JsString.all_chars (fun c => negb (JsString.is_lower c)) s.


(** A ledger of six trades of alice, stored out of order. *)
Definition six_trades : list Trade :=
  map (fun n => mkTrade "t" "u-alice" "BTC" "crypto" 10 1 None n) [3; 6; 1; 5; 2; 4].

Definition busy_store : Store.t := Store.mk [alice; bob] [] six_trades.

(* ===================================================================== *)
(** ** The ledger read: ordering of the retrieved trades *)
(* ===================================================================== *)


Lemma insert_desc_perm (x : Trade) (l : list Trade) :
  Permutation (x :: l) (Store.insert_desc x l).
Proof.
  induction l as [|h r IH]; simpl.
  - apply Permutation_refl.
  - destruct (created_at h <=? created_at x).
    + apply Permutation_refl.
    + eapply perm_trans; [apply perm_swap|]. now apply perm_skip.
Qed.

Lemma order_desc_perm (l : list Trade) : Permutation l (Store.order_desc l).
Proof.
  induction l as [|x r IH]; simpl.
  - constructor.
  - eapply perm_trans; [apply perm_skip, IH | apply insert_desc_perm].
Qed.

Lemma insert_desc_Forall (P : Trade -> Prop) (x : Trade) (l : list Trade) :
  P x -> Forall P l -> Forall P (Store.insert_desc x l).
Proof.
  intros Hx Hl. eapply Permutation_Forall; [apply insert_desc_perm|].
  now constructor.
Qed.

Lemma insert_desc_sorted (x : Trade) (l : list Trade) :
  StronglySorted newer_first l -> StronglySorted newer_first (Store.insert_desc x l).
Proof.
  induction 1 as [|h r Hr IH Hh]; simpl.
  - repeat constructor.
  - destruct (created_at h <=? created_at x) eqn:E.
    + apply Z.leb_le in E. constructor.
      * now constructor.
      * constructor; [exact E|].
        eapply Forall_impl; [|exact Hh].
        unfold newer_first. intros; lia.
    + apply Z.leb_gt in E. constructor; [exact IH|].
      apply insert_desc_Forall; [unfold newer_first; lia | exact Hh].
Qed.

Lemma order_desc_sorted (l : list Trade) :
  StronglySorted newer_first (Store.order_desc l).
Proof.
  induction l as [|x r IH]; simpl.
  - constructor.
  - now apply insert_desc_sorted.
Qed.

(* ===================================================================== *)
(** ** The statistics: the accumulating loops against floating-point sums *)
(* ===================================================================== *)


Lemma is_zero_cases (p : float) :
  is_zero p = true -> p = zero \/ p = neg_zero.
Proof.
  unfold is_zero. rewrite FloatAxioms.eqb_spec. intros H.
  rewrite <- (SF2Prim_Prim2SF p).
  destruct (Prim2SF p) as [[|] | [|] | | [|] m e]; cbv in H;
    try discriminate; [right | left]; reflexivity.
Qed.

(** On an ordinary amount [p || 0] is [p] itself. *)
Lemma or_zero_present (t : Trade) :
  ordinary_pnl t = true -> or_zero (profit_loss t) = pnl_where_present t.
Proof.
  unfold ordinary_pnl, pnl_where_present, or_zero, falsy_number, ordinary_amount.
  destruct (profit_loss t) as [p|]; [|reflexivity].
  intros H. apply andb_true_iff in H. destruct H as [Hnan Hneg].
  apply negb_true_iff in Hnan. rewrite Hnan. simpl.
  destruct (is_zero p) eqn:Ez; [|reflexivity].
  destruct (is_zero_cases p Ez) as [-> | ->]; [reflexivity|].
  discriminate Hneg.
Qed.

(** A [reduce] that adds one amount per trade is the running total of
    those amounts. *)
Lemma reduce_is_running_total (f g : Trade -> float) (l : list Trade) (acc : float) :
  Forall (fun t => f t = g t) l ->
  fold_left (fun sum trade => (sum + f trade)%float) l acc
  = running_total acc (map g l).
Proof.
  intros Hfg. revert acc.
  induction Hfg as [|t r Ht Hr IH]; intros acc; simpl; [reflexivity|].
  now rewrite Ht, IH.
Qed.

Lemma stats_of_count_and_value (trades : list Trade) :
  totalTrades (stats_of trades) = Z.of_nat (length trades)
  /\ totalValue (stats_of trades) = float_sum (map trade_value trades).
Proof.
  unfold stats_of, float_sum. cbn [totalTrades totalValue]. split; [reflexivity|].
  apply (reduce_is_running_total (fun t => price t * quantity t)%float trade_value).
  apply Forall_forall. reflexivity.
Qed.

Lemma stats_of_pnl (trades : list Trade) :
  forallb ordinary_pnl trades = true ->
  totalPnL (stats_of trades) = float_sum (map pnl_where_present trades).
Proof.
  intros H. unfold stats_of, float_sum. cbn [totalPnL].
  apply (reduce_is_running_total (fun t => or_zero (profit_loss t)) pnl_where_present).
  apply Forall_forall. intros t Ht. apply or_zero_present.
  rewrite forallb_forall in H. now apply H.
Qed.


Lemma fetchTraderData_delivered (traderId : string) (w : World) :
  hd Delivered (transport w) = Delivered ->
  fetchTraderData traderId w =
    (Normal tt,
     mkWorld (store w) (tl (transport w))
             (requests w ++ [SelectTrades traderId])
             (mkView (traderUid (view w)) (boundTrader (view w))
                     (bindingStatus (view w))
                     (stats_of (ledger traderId (store w)))
                     (recent_of (ledger traderId (store w)))
                     (loading (view w)) (submitting (view w)))
             (toasts w) (console w)).
Proof.
  intros H. unfold fetchTraderData, try_catch, bind, await.
  rewrite H. reflexivity.
Qed.

Lemma fetchTraderData_failed (traderId : string) (w : World) (e : StoreError) :
  hd Delivered (transport w) = ErrorReply e ->
  fetchTraderData traderId w =
    (Normal tt,
     mkWorld (store w) (tl (transport w))
             (requests w ++ [SelectTrades traderId])
             (view w) (toasts w) (console w)).
Proof.
  intros H. unfold fetchTraderData, try_catch, bind, await.
  rewrite H. reflexivity.
Qed.

Lemma fetchTraderData_rejected (traderId : string) (w : World) (e : StoreError) :
  hd Delivered (transport w) = Rejected e ->
  fetchTraderData traderId w =
    (Normal tt,
     mkWorld (store w) (tl (transport w))
             (requests w ++ [SelectTrades traderId])
             (view w) (toasts w)
             (console w ++ [("Error fetching trader data:", e)])).
Proof.
  intros H. unfold fetchTraderData, try_catch, bind, await.
  rewrite H. reflexivity.
Qed.

(* ===================================================================== *)
(** ** Metrics aggregator: properties of [fetchTraderData] *)
(* ===================================================================== *)

(** C2. For every ledger retrieved for a trader, the statistics stored by
    [fetchTraderData] are: [totalTrades] the number of retrieved trades,
    [totalValue] the floating-point sum of [price * quantity] over them,
    [totalPnL] the floating-point sum of [profit_loss] where present, an
    absent one counting for zero (the stored amounts being ordinary numbers).
    On the ledger [{100,2,+10}, {50,1,-5}] they are 2, 250 and 5. *)
Theorem fetchTraderData_stats_count_and_sums :
  (forall (traderId : string) (w : World),
      hd Delivered (transport w) = Delivered ->
      totalTrades (traderStats (view (exec (fetchTraderData traderId) w)))
      = Z.of_nat (length (ledger traderId (store w)))
      /\ totalValue (traderStats (view (exec (fetchTraderData traderId) w)))
         = float_sum (map trade_value (ledger traderId (store w)))
      /\ (forallb ordinary_pnl (ledger traderId (store w)) = true ->
          totalPnL (traderStats (view (exec (fetchTraderData traderId) w)))
          = float_sum (map pnl_where_present (ledger traderId (store w)))))
  /\ ledger (id alice) open_store = [trade_a; trade_b]
  /\ traderStats (view (exec (fetchTraderData (id alice)) (mount open_store [])))
     = mkStats 2 250 5.
Proof.
  split; [|split; reflexivity].
  intros traderId w H. unfold exec.
  rewrite (fetchTraderData_delivered traderId w H). cbn [snd view traderStats].
  destruct (stats_of_count_and_value (ledger traderId (store w))) as [Hn Hv].
  split; [exact Hn | split; [exact Hv | apply stats_of_pnl]].
Qed.

Lemma fetchTraderData_stats_count_and_sums_witness :
  hd Delivered (transport (mount approved_store [Delivered])) = Delivered
  /\ forallb ordinary_pnl (ledger "u-alice" approved_store) = true
  /\ totalValue (traderStats (view (exec (fetchTraderData "u-alice")
                                         (mount approved_store [Delivered]))))
     = 250%float
  /\ totalPnL (traderStats (view (exec (fetchTraderData "u-alice")
                                       (mount approved_store [Delivered]))))
     = 5%float.
Proof.
  destruct (proj1 fetchTraderData_stats_count_and_sums "u-alice"
              (mount approved_store [Delivered]) eq_refl) as (_ & Hv & Hp).
  refine (conj eq_refl (conj eq_refl (conj _ _))).
  - rewrite Hv. reflexivity.
  - rewrite (Hp eq_refl). reflexivity.
Defined.

(** C5. The recent trades stored by [fetchTraderData] are the first five
    rows of the retrieved ledger (all of them when there are fewer), so at
    most five and a prefix of it; the retrieved ledger is the trader's
    trades ordered by creation time, newest first. *)
Theorem fetchTraderData_recent_is_prefix (traderId : string) (w : World) :
  hd Delivered (transport w) = Delivered ->
  (length (recentTrades (view (exec (fetchTraderData traderId) w))) <= 5)%nat
  /\ recentTrades (view (exec (fetchTraderData traderId) w))
     = firstn 5 (ledger traderId (store w))
  /\ ((length (ledger traderId (store w)) <= 5)%nat ->
      recentTrades (view (exec (fetchTraderData traderId) w))
      = ledger traderId (store w))
  /\ (exists older,
        ledger traderId (store w)
        = (recentTrades (view (exec (fetchTraderData traderId) w)) ++ older)%list)
  /\ StronglySorted newer_first (ledger traderId (store w))
  /\ Permutation (Store.trades_of traderId (store w)) (ledger traderId (store w)).
Proof.
  intros H. unfold exec.
  rewrite (fetchTraderData_delivered traderId w H). simpl.
  unfold recent_of. repeat split.
  - apply firstn_le_length.
  - intros Hlen. now apply firstn_all2.
  - exists (skipn 5 (ledger traderId (store w))).
    symmetry. apply firstn_skipn.
  - apply order_desc_sorted.
  - apply order_desc_perm.
Qed.

Lemma fetchTraderData_recent_is_prefix_witness :
  recentTrades (view (exec (fetchTraderData "u-alice") (mount open_store [])))
  = [trade_a; trade_b].
Proof.
  exact (proj1 (proj2 (fetchTraderData_recent_is_prefix "u-alice"
                         (mount open_store []) eq_refl))).
Defined.

(** C7. Over an empty ledger [fetchTraderData] stores the all-zero
    statistics and an empty list of recent trades. *)
Theorem fetchTraderData_empty_ledger (traderId : string) (w : World) :
  hd Delivered (transport w) = Delivered ->
  Store.trades_of traderId (store w) = [] ->
  traderStats (view (exec (fetchTraderData traderId) w)) = mkStats 0 0 0
  /\ recentTrades (view (exec (fetchTraderData traderId) w)) = [].
Proof.
  intros H Hnone. unfold exec.
  rewrite (fetchTraderData_delivered traderId w H). simpl.
  unfold ledger. rewrite Hnone. split; reflexivity.
Qed.

Lemma fetchTraderData_empty_ledger_witness :
  traderStats (view (exec (fetchTraderData "u-bob")
                          (exec (fetchTraderData "u-alice") (mount open_store []))))
  = mkStats 0 0 0
  /\ recentTrades (view (exec (fetchTraderData "u-bob")
                              (exec (fetchTraderData "u-alice")
                                    (mount open_store []))))
     = [].
Proof.
  apply (fetchTraderData_empty_ledger "u-bob"
           (exec (fetchTraderData "u-alice") (mount open_store [])));
    reflexivity.
Defined.

(** C9 (as amended). A failed ledger read -- an error reply or a rejected
    request -- never escapes [fetchTraderData] and leaves the statistics and
    the recent trades as they were; a rejected request is logged on the
    console.  On a first load these are the all-zero statistics and the empty
    list, and the dashboard renders with them. *)
Theorem fetchTraderData_read_failure_keeps_state :
  (forall (traderId : string) (w : World) (e : StoreError),
      hd Delivered (transport w) = ErrorReply e
      \/ hd Delivered (transport w) = Rejected e ->
      completes (fetchTraderData traderId) w = true
      /\ view (exec (fetchTraderData traderId) w) = view w
      /\ store (exec (fetchTraderData traderId) w) = store w
      /\ toasts (exec (fetchTraderData traderId) w) = toasts w
      /\ (hd Delivered (transport w) = Rejected e ->
          console (exec (fetchTraderData traderId) w)
          = (console w ++ [("Error fetching trader data:", e)])%list))
  /\ (forall (profile : User) (s : Store.t) (b : Binding)
             (f : Transport) (rest : list Transport) (e : StoreError),
         Store.bindings_of (id profile) s = [b] ->
         status b = approved ->
         f = ErrorReply e \/ f = Rejected e ->
         completes (checkExistingBinding profile)
                   (mount s (Delivered :: f :: rest)) = true
         /\ render (view (exec (checkExistingBinding profile)
                               (mount s (Delivered :: f :: rest))))
            = Dashboard (snd (Store.joined_trader s b)) (mkStats 0 0 0) []).
Proof.
  split.
  - intros traderId w e [H|H]; unfold exec, completes.
    + rewrite (fetchTraderData_failed traderId w e H). simpl.
      repeat split. rewrite H. discriminate.
    + rewrite (fetchTraderData_rejected traderId w e H). simpl.
      repeat split.
  - intros profile s b f rest e Hb Happ Hf.
    unfold exec, completes, checkExistingBinding, fetchTraderData, finally,
      try_catch, bind, await, Store.select_binding, mount.
    cbn. rewrite Hb. cbn. rewrite Happ.
    destruct Hf as [-> | ->]; cbn; split; reflexivity.
Qed.

Lemma fetchTraderData_read_failure_keeps_state_witness :
  render (view first_load_with_failed_read)
  = Dashboard (Some alice) (mkStats 0 0 0) []
  /\ console (exec (fetchTraderData "u-alice")
                   (mount approved_store [Rejected unreachable]))
     = [("Error fetching trader data:", unreachable)].
Proof.
  split.
  - exact (proj2 (proj2 fetchTraderData_read_failure_keeps_state bob
                    approved_store (mkBinding "u-alice" "u-bob" approved)
                    (ErrorReply unreachable) [] unreachable
                    eq_refl eq_refl (or_introl eq_refl))).
  - apply (proj1 fetchTraderData_read_failure_keeps_state "u-alice"
             (mount approved_store [Rejected unreachable]) unreachable
             (or_intror eq_refl)).
    reflexivity.
Defined.

(** C9 (as stated) fails: after a load that succeeded, a reload whose ledger
    read fails keeps the earlier figures instead of the empty statistics, and
    a read answered with an error is logged nowhere. *)
Lemma failed_read_keeps_earlier_stats_unlogged :
  requests reloaded_with_failed_read
  = [SelectBinding "u-bob"; SelectTrades "u-alice";
     SelectBinding "u-bob"; SelectTrades "u-alice"]
  /\ transport reloaded_with_failed_read = []
  /\ traderStats (view reloaded_with_failed_read) = mkStats 2 250 5
  /\ recentTrades (view reloaded_with_failed_read) = [trade_a; trade_b]
  /\ console reloaded_with_failed_read = []
  /\ console first_load_with_failed_read = [].
Proof. repeat split. Qed.

(* ===================================================================== *)
(** ** Case and white space in the entered code *)
(* ===================================================================== *)

Lemma toUpperChar_toLowerChar (c : ascii) :
  JsString.toUpperChar (JsString.toLowerChar c) = JsString.toUpperChar c.
Proof. destruct c as [[] [] [] [] [] [] [] []]; reflexivity. Qed.

Lemma is_space_toLowerChar (c : ascii) :
  JsString.is_space (JsString.toLowerChar c) = JsString.is_space c.
Proof. destruct c as [[] [] [] [] [] [] [] []]; reflexivity. Qed.

Lemma toUpperCase_toLowerCase (s : string) :
  JsString.toUpperCase (JsString.toLowerCase s) = JsString.toUpperCase s.
Proof.
  unfold JsString.toUpperCase, JsString.toLowerCase.
  induction s as [|c r IH]; simpl; [reflexivity|].
  now rewrite toUpperChar_toLowerChar, IH.
Qed.

Section TrimMap.
Variable f : ascii -> ascii.
Hypothesis f_space : forall c, JsString.is_space (f c) = JsString.is_space c.

Lemma trimStart_map_chars (s : string) :
  JsString.trimStart (JsString.map_chars f s)
  = JsString.map_chars f (JsString.trimStart s).
Proof.
  induction s as [|c r IH]; simpl; [reflexivity|].
  rewrite f_space. destruct (JsString.is_space c); [exact IH | reflexivity].
Qed.

Lemma trimEnd_map_chars (s : string) :
  JsString.trimEnd (JsString.map_chars f s)
  = JsString.map_chars f (JsString.trimEnd s).
Proof.
  induction s as [|c r IH]; simpl; [reflexivity|].
  rewrite IH, f_space.
  destruct (JsString.trimEnd r); simpl; [|reflexivity].
  destruct (JsString.is_space c); reflexivity.
Qed.

Lemma trim_map_chars (s : string) :
  JsString.trim (JsString.map_chars f s)
  = JsString.map_chars f (JsString.trim s).
Proof.
  unfold JsString.trim. now rewrite trimStart_map_chars, trimEnd_map_chars.
Qed.
End TrimMap.

Lemma truthy_map_chars (f : ascii -> ascii) (s : string) :
  JsString.truthy (JsString.map_chars f s) = JsString.truthy s.
Proof. destruct s; reflexivity. Qed.

Lemma same_ignoring_case_key (a b : string) :
  JsString.same_ignoring_case a b = true ->
  JsString.toUpperCase (JsString.trim a) = JsString.toUpperCase (JsString.trim b).
Proof.
  unfold JsString.same_ignoring_case. intros H. apply String.eqb_eq in H.
  rewrite <- (toUpperCase_toLowerCase (JsString.trim a)).
  rewrite <- (toUpperCase_toLowerCase (JsString.trim b)).
  unfold JsString.toLowerCase in *.
  rewrite <- !(trim_map_chars _ is_space_toLowerChar).
  now rewrite H.
Qed.

Lemma same_ignoring_case_truthy (a b : string) :
  JsString.same_ignoring_case a b = true ->
  JsString.truthy (JsString.trim a) = JsString.truthy (JsString.trim b).
Proof.
  intros H. apply same_ignoring_case_key in H.
  unfold JsString.toUpperCase in H.
  rewrite <- (truthy_map_chars JsString.toUpperChar (JsString.trim a)).
  rewrite <- (truthy_map_chars JsString.toUpperChar (JsString.trim b)).
  now rewrite H.
Qed.

Lemma truthy_false_iff (s : string) : JsString.truthy s = false <-> s = "".
Proof. destruct s; simpl; split; congruence. Qed.

(* ===================================================================== *)
(** ** Binding manager: properties of [handleBindingRequest] *)
(* ===================================================================== *)

(** The handler is analysed with the entered code kept abstract. *)
Arguments JsString.trim : simpl never.
Arguments JsString.toUpperCase : simpl never.

(** One branching point of the handler: the blank test, the transport of a
    request, the rows matched by the lookup, the investor's bindings, the
    test on the error code. *)
Ltac step_handler :=
  match goal with
  | |- context [JsString.truthy ?s] => destruct (JsString.truthy s) eqn:?
  | |- context [hd Delivered ?l] => destruct (hd Delivered l) eqn:?
  | |- context [Store.traders_with_uid ?c ?s] =>
      destruct (Store.traders_with_uid c s) as [|? [|? ?]] eqn:?
  | |- context [Store.bindings_of ?i ?s] =>
      destruct (Store.bindings_of i s) eqn:?
  | |- context [String.eqb ?a ?b] => destruct (String.eqb a b) eqn:?
  end; cbn.

Ltac unfold_handler :=
  unfold exec, completes, handleBindingRequest, entered_code, type_uid,
    finally, try_catch, bind, await, get_view,
    setSubmitting, setBoundTrader, setBindingStatus, setTraderUid,
    modify_view, toast, throw, ret,
    Store.select_trader, Store.insert_binding, Store.maybeSingle in *;
  cbn in *.

Ltac run_handler := unfold_handler; repeat step_handler.

(** C6. The trader lookup ignores the case of the entered code: two inputs
    that differ only in the case of their letters are looked up with the same
    key, and the request proceeds identically (same requests to the store,
    same resulting store, toasts, bound trader and binding status). *)
Theorem handleBindingRequest_case_insensitive
  (profile : User) (w : World) (c1 c2 : string) :
  JsString.same_ignoring_case c1 c2 = true ->
  entered_code (type_uid c1 w) = entered_code (type_uid c2 w)
  /\ requests (exec (handleBindingRequest profile) (type_uid c1 w))
     = requests (exec (handleBindingRequest profile) (type_uid c2 w))
  /\ store (exec (handleBindingRequest profile) (type_uid c1 w))
     = store (exec (handleBindingRequest profile) (type_uid c2 w))
  /\ toasts (exec (handleBindingRequest profile) (type_uid c1 w))
     = toasts (exec (handleBindingRequest profile) (type_uid c2 w))
  /\ boundTrader (view (exec (handleBindingRequest profile) (type_uid c1 w)))
     = boundTrader (view (exec (handleBindingRequest profile) (type_uid c2 w)))
  /\ bindingStatus (view (exec (handleBindingRequest profile) (type_uid c1 w)))
     = bindingStatus (view (exec (handleBindingRequest profile) (type_uid c2 w))).
Proof.
  intros H.
  pose proof (same_ignoring_case_key c1 c2 H) as Hk.
  pose proof (same_ignoring_case_truthy c1 c2 H) as Ht.
  unfold_handler. rewrite Hk, Ht.
  repeat step_handler; repeat split.
Qed.

Lemma handleBindingRequest_case_insensitive_witness :
  JsString.same_ignoring_case "abc12345" "ABC12345" = true
  /\ entered_code (type_uid "abc12345" (mount open_store [])) = "ABC12345"
  /\ boundTrader (view (exec (handleBindingRequest bob)
                             (type_uid "abc12345" (mount open_store []))))
     = Some alice
  /\ boundTrader (view (exec (handleBindingRequest bob)
                             (type_uid "ABC12345" (mount open_store []))))
     = Some alice.
Proof.
  pose proof (handleBindingRequest_case_insensitive bob (mount open_store [])
                "abc12345" "ABC12345" eq_refl) as (Hk & _ & _ & _ & Hb & _).
  split; [reflexivity|]. split; [rewrite Hk; reflexivity|].
  split; [rewrite Hb|]; reflexivity.
Defined.

(** C8 (as amended). A blank code -- empty or white space only -- is refused
    with the "Please enter a trader UID" toast before any request is made:
    nothing but the toast changes.  Any other code, whatever its shape, is
    sent to the trader lookup. *)
Theorem handleBindingRequest_blank_code_no_request (profile : User) (w : World) :
  (JsString.trim (traderUid (view w)) = "" ->
   handleBindingRequest profile w
   = (Normal tt,
      mkWorld (store w) (transport w) (requests w) (view w)
              (toasts w ++ [toast_enter_uid]) (console w)))
  /\ (JsString.trim (traderUid (view w)) <> "" ->
      exists more,
        requests (exec (handleBindingRequest profile) w)
        = (requests w ++ SelectTrader (entered_code w) :: more)%list).
Proof.
  split; intros H.
  - unfold_handler. rewrite H. reflexivity.
  - assert (Ht : JsString.truthy (JsString.trim (traderUid (view w))) = true).
    { destruct (JsString.truthy _) eqn:E; [reflexivity|].
      now apply truthy_false_iff in E. }
    unfold_handler. rewrite Ht. cbn.
    repeat step_handler;
      try (exists []; reflexivity);
      (eexists; rewrite <- app_assoc; reflexivity).
Qed.

Lemma handleBindingRequest_blank_code_no_request_witness :
  requests (exec (handleBindingRequest bob) (type_uid "   " (mount open_store [])))
  = []
  /\ toasts (exec (handleBindingRequest bob) (type_uid "   " (mount open_store [])))
     = [toast_enter_uid].
Proof.
  unfold exec.
  rewrite (proj1 (handleBindingRequest_blank_code_no_request bob
                    (type_uid "   " (mount open_store []))) eq_refl).
  split; reflexivity.
Defined.

(** C8 (as stated) fails: a malformed code that is not blank is not refused
    up front; the lookup request is made with it. *)
Lemma malformed_code_reaches_the_store :
  well_formed_uid "abc" = false
  /\ requests (exec (handleBindingRequest bob) (type_uid "abc" (mount open_store [])))
     = [SelectTrader "ABC"]
  /\ toasts (exec (handleBindingRequest bob) (type_uid "abc" (mount open_store [])))
     = [toast_not_found].
Proof. repeat split. Qed.

Lemma nonblank_truthy (s : string) : s <> "" -> JsString.truthy s = true.
Proof. destruct s; simpl; congruence. Qed.

Lemma bindings_of_app (inv : string) (s : Store.t) (b : Binding) :
  Store.bindings_of inv
    (Store.mk (Store.users s) (Store.bindings s ++ [b]) (Store.trades s))
  = (Store.bindings_of inv s
       ++ (if String.eqb (investor_id b) inv then [b] else []))%list.
Proof. unfold Store.bindings_of. simpl. now rewrite filter_app. Qed.

Lemma traders_with_uid_sound (c : string) (s : Store.t) (u : User) :
  In u (Store.traders_with_uid c s) ->
  role u = Trader /\ trader_uid u = Some c.
Proof.
  unfold Store.traders_with_uid, Store.uid_is. intros H.
  apply filter_In in H. destruct H as [_ H].
  apply andb_true_iff in H. destruct H as [Hu Hr]. split.
  - now destruct (role u).
  - destruct (trader_uid u) as [uid|]; [|discriminate].
    apply String.eqb_eq in Hu. now subst.
Qed.

(** C4. A code that matches no trader never creates a binding and never
    leads to an insert: the store is unchanged and at most the lookup is
    requested.  When the code is not blank and the lookup request is answered,
    the call fails with the "Trader not found" toast and the binding state of
    the view is unchanged. *)
Theorem handleBindingRequest_unknown_code (profile : User) (w : World) :
  Store.traders_with_uid (entered_code w) (store w) = [] ->
  (store (exec (handleBindingRequest profile) w) = store w
   /\ (requests (exec (handleBindingRequest profile) w) = requests w
       \/ requests (exec (handleBindingRequest profile) w)
          = (requests w ++ [SelectTrader (entered_code w)])%list))
  /\ (JsString.trim (traderUid (view w)) <> "" ->
      (forall e, hd Delivered (transport w) <> Rejected e) ->
      toasts (exec (handleBindingRequest profile) w)
      = (toasts w ++ [toast_not_found])%list
      /\ requests (exec (handleBindingRequest profile) w)
         = (requests w ++ [SelectTrader (entered_code w)])%list
      /\ bindingStatus (view (exec (handleBindingRequest profile) w))
         = bindingStatus (view w)
      /\ boundTrader (view (exec (handleBindingRequest profile) w))
         = boundTrader (view w)).
Proof.
  intros Hnone. split.
  - unfold_handler.
    repeat step_handler; try congruence; split; auto.
  - intros Hcode Hans. apply nonblank_truthy in Hcode.
    unfold_handler. rewrite Hcode. cbn.
    destruct (hd Delivered (transport w)) eqn:E; cbn.
    + rewrite Hnone. repeat split.
    + repeat split.
    + now destruct (Hans e).
Qed.

Lemma handleBindingRequest_unknown_code_witness :
  toasts (exec (handleBindingRequest bob) (type_uid "ZZZ99999" (mount open_store [])))
  = [toast_not_found]
  /\ Store.bindings
       (store (exec (handleBindingRequest bob)
                    (type_uid "ZZZ99999" (mount open_store []))))
     = [].
Proof.
  pose proof (handleBindingRequest_unknown_code bob
                (type_uid "ZZZ99999" (mount open_store [])) eq_refl)
    as [[Hs _] Hfail].
  split.
  - apply Hfail; [discriminate | intros e; discriminate].
  - rewrite Hs. reflexivity.
Defined.

(** C3. When the entered code is not blank and resolves to exactly one user
    with role trader, the investor has no binding and both requests are
    delivered, the call creates exactly one binding for the investor, with
    status pending and that trader, and exposes it in the view: binding status
    pending, bound trader set, input cleared, "Request sent!" toast. *)
Theorem handleBindingRequest_creates_pending_binding
  (profile : User) (w : World) (tr : User) :
  JsString.trim (traderUid (view w)) <> "" ->
  Store.traders_with_uid (entered_code w) (store w) = [tr] ->
  Store.bindings_of (id profile) (store w) = [] ->
  hd Delivered (transport w) = Delivered ->
  hd Delivered (tl (transport w)) = Delivered ->
  Store.bindings (store (exec (handleBindingRequest profile) w))
  = (Store.bindings (store w) ++ [mkBinding (id tr) (id profile) pending])%list
  /\ Store.bindings_of (id profile) (store (exec (handleBindingRequest profile) w))
     = [mkBinding (id tr) (id profile) pending]
  /\ bindingStatus (view (exec (handleBindingRequest profile) w)) = bs_pending
  /\ boundTrader (view (exec (handleBindingRequest profile) w)) = Some tr
  /\ traderUid (view (exec (handleBindingRequest profile) w)) = ""
  /\ toasts (exec (handleBindingRequest profile) w)
     = (toasts w ++ [toast_request_sent tr])%list
  /\ requests (exec (handleBindingRequest profile) w)
     = (requests w ++ [SelectTrader (entered_code w);
                       InsertBinding (id tr) (id profile)])%list
  /\ render (view (exec (handleBindingRequest profile) w))
     = (if loading (view w) then Skeleton else PendingCard (Some tr))
  /\ role tr = Trader
  /\ trader_uid tr = Some (entered_code w).
Proof.
  intros Hcode Htr Hfree Hd1 Hd2. apply nonblank_truthy in Hcode.
  destruct (traders_with_uid_sound (entered_code w) (store w) tr) as [Hrole Huid];
    [rewrite Htr; now left|].
  assert (Hafter :
    Store.bindings_of (id profile)
      (Store.mk (Store.users (store w))
                (Store.bindings (store w) ++ [mkBinding (id tr) (id profile) pending])
                (Store.trades (store w)))
    = [mkBinding (id tr) (id profile) pending]).
  { rewrite bindings_of_app, Hfree. simpl. now rewrite String.eqb_refl. }
  unfold_handler. rewrite Hcode. cbn. rewrite Hd1, Htr. cbn.
  rewrite Hd2, Hfree. cbn.
  repeat split; try exact Hafter; try assumption.
  now rewrite <- app_assoc.
Qed.

Lemma handleBindingRequest_creates_pending_binding_witness :
  Store.bindings
    (store (exec (handleBindingRequest bob)
                 (type_uid " abc12345 " (mount open_store []))))
  = [mkBinding "u-alice" "u-bob" pending]
  /\ bindingStatus
       (view (exec (handleBindingRequest bob)
                   (type_uid " abc12345 " (mount open_store []))))
     = bs_pending.
Proof.
  pose proof (handleBindingRequest_creates_pending_binding bob
                (type_uid " abc12345 " (mount open_store [])) alice)
    as Hsent.
  destruct Hsent as (Hb & _ & Hs & _);
    [discriminate | reflexivity | reflexivity | reflexivity | reflexivity |].
  split; [rewrite Hb; reflexivity | exact Hs].
Defined.

(** C1 (as amended). For an investor who already holds a binding, no call
    creates a second one, whatever the code and the transport: the store is
    unchanged.  When the code is not blank and resolves to a trader and the
    requests are delivered, the call fails with the "Already requested"
    toast; the duplicate is found by the insert itself, answered with error
    code 23505, the lookup and the insert being the only requests made. *)
Theorem handleBindingRequest_duplicate_request (profile : User) (w : World) :
  Store.bindings_of (id profile) (store w) <> [] ->
  store (exec (handleBindingRequest profile) w) = store w
  /\ (forall tr : User,
         JsString.trim (traderUid (view w)) <> "" ->
         Store.traders_with_uid (entered_code w) (store w) = [tr] ->
         hd Delivered (transport w) = Delivered ->
         hd Delivered (tl (transport w)) = Delivered ->
         toasts (exec (handleBindingRequest profile) w)
         = (toasts w ++ [toast_already_requested])%list
         /\ requests (exec (handleBindingRequest profile) w)
            = (requests w ++ [SelectTrader (entered_code w);
                              InsertBinding (id tr) (id profile)])%list
         /\ fst (Store.insert_binding (id tr) (id profile) (store w))
            = failed Store.unique_violation
         /\ code Store.unique_violation = "23505"
         /\ bindingStatus (view (exec (handleBindingRequest profile) w))
            = bindingStatus (view w)
         /\ boundTrader (view (exec (handleBindingRequest profile) w))
            = boundTrader (view w)).
Proof.
  intros Hheld. split.
  - unfold_handler.
    repeat step_handler; try congruence; reflexivity.
  - intros tr Hcode Htr Hd1 Hd2. apply nonblank_truthy in Hcode.
    unfold_handler. rewrite Hcode. cbn. rewrite Hd1, Htr. cbn. rewrite Hd2.
    destruct (Store.bindings_of (id profile) (store w)) as [|b bs] eqn:E;
      [congruence|]. cbn.
    repeat split. now rewrite <- app_assoc.
Qed.

Lemma handleBindingRequest_duplicate_request_witness :
  toasts (exec (handleBindingRequest bob)
               (type_uid "abc12345" (mount pending_store [])))
  = [toast_already_requested]
  /\ Store.bindings
       (store (exec (handleBindingRequest bob)
                    (type_uid "abc12345" (mount pending_store []))))
     = [mkBinding "u-alice" "u-bob" pending].
Proof.
  pose proof (handleBindingRequest_duplicate_request bob
                (type_uid "abc12345" (mount pending_store [])))
    as Hdup.
  destruct Hdup as [Hs Hfail]; [discriminate|].
  split.
  - apply (Hfail alice); [discriminate | reflexivity | reflexivity | reflexivity].
  - rewrite Hs. reflexivity.
Defined.

(** C1 (as stated) fails: an investor who holds a binding and supplies a code
    that matches no trader gets "Trader not found", and one who supplies a
    blank code gets "Please enter a trader UID"; neither reaches the insert. *)
Lemma existing_binding_other_codes_not_duplicate :
  Store.bindings_of (id bob) pending_store = [mkBinding "u-alice" "u-bob" pending]
  /\ toasts (exec (handleBindingRequest bob)
                  (type_uid "ZZZ99999" (mount pending_store [])))
     = [toast_not_found]
  /\ requests (exec (handleBindingRequest bob)
                    (type_uid "ZZZ99999" (mount pending_store [])))
     = [SelectTrader "ZZZ99999"]
  /\ toasts (exec (handleBindingRequest bob) (type_uid "" (mount pending_store [])))
     = [toast_enter_uid]
  /\ requests (exec (handleBindingRequest bob) (type_uid "" (mount pending_store [])))
     = [].
Proof. repeat split. Qed.

(** C10. Every call shows exactly one toast and completes.  Either the call
    failed -- the toast is a destructive one -- and then the binding status,
    the bound trader and the entered code are what they were and the store is
    unchanged; or it succeeded -- the "Request sent!" toast -- and then the
    status is pending, the trader is bound, the input is cleared and the
    binding has been added. *)
Theorem handleBindingRequest_failure_keeps_binding_state
  (profile : User) (w : World) :
  completes (handleBindingRequest profile) w = true
  /\ exists t : Toast,
      toasts (exec (handleBindingRequest profile) w) = (toasts w ++ [t])%list
      /\ ((variant t = Some "destructive"
           /\ bindingStatus (view (exec (handleBindingRequest profile) w))
              = bindingStatus (view w)
           /\ boundTrader (view (exec (handleBindingRequest profile) w))
              = boundTrader (view w)
           /\ traderUid (view (exec (handleBindingRequest profile) w))
              = traderUid (view w)
           /\ store (exec (handleBindingRequest profile) w) = store w)
          \/ (exists tr : User,
                 t = toast_request_sent tr
                 /\ variant t = None
                 /\ Store.traders_with_uid (entered_code w) (store w) = [tr]
                 /\ bindingStatus (view (exec (handleBindingRequest profile) w))
                    = bs_pending
                 /\ boundTrader (view (exec (handleBindingRequest profile) w))
                    = Some tr
                 /\ traderUid (view (exec (handleBindingRequest profile) w)) = ""
                 /\ Store.bindings (store (exec (handleBindingRequest profile) w))
                    = (Store.bindings (store w)
                         ++ [mkBinding (id tr) (id profile) pending])%list)).
Proof.
  unfold_handler.
  repeat step_handler; (split; [reflexivity|]);
    eexists; (split; [reflexivity|]);
    first [ left; repeat split; reflexivity
          | right; eexists; repeat split; reflexivity ].
Qed.

(* ===================================================================== *)
(** ** Further properties: loading the dashboard *)
(* ===================================================================== *)

Ltac unfold_load :=
  unfold exec, completes, onProfile, checkExistingBinding, fetchTraderData,
    finally, try_catch, bind, await, mount,
    setLoading, setBindingStatus, setBoundTrader, setTraderStats,
    setRecentTrades, modify_view, console_error, ret,
    Store.select_binding, Store.select_trades, Store.maybeSingle in *;
  cbn in *.

Ltac step_load :=
  match goal with
  | |- context [hd Delivered ?l] => destruct (hd Delivered l) eqn:?
  | |- context [Store.bindings_of ?i ?s] =>
      destruct (Store.bindings_of i s) as [|? [|? ?]] eqn:?
  | |- context [status ?b] => destruct (status b) eqn:?
  end; cbn.

(** X1. Whatever the store answers -- rows, no row, an error, a rejection --
    [checkExistingBinding] completes, ends the loading state, shows no toast,
    writes nothing to the store and leaves the entered code alone. *)
Theorem checkExistingBinding_always_ends_loading (profile : User) (w : World) :
  completes (checkExistingBinding profile) w = true
  /\ loading (view (exec (checkExistingBinding profile) w)) = false
  /\ store (exec (checkExistingBinding profile) w) = store w
  /\ toasts (exec (checkExistingBinding profile) w) = toasts w
  /\ traderUid (view (exec (checkExistingBinding profile) w)) = traderUid (view w)
  /\ submitting (view (exec (checkExistingBinding profile) w)) = submitting (view w).
Proof.
  unfold_load. repeat step_load; repeat split.
Qed.

(** X2. The trade ledger is read exactly for an approved binding: the load
    always requests the investor's binding first; when that request is
    delivered and finds a single approved binding, one more request follows,
    the ledger of that binding's trader; in every other case no request
    follows. *)
Theorem checkExistingBinding_reads_ledger_only_when_approved
  (profile : User) (w : World) :
  requests (exec (checkExistingBinding profile) w)
  = (requests w
       ++ SelectBinding (id profile)
          :: match hd Delivered (transport w),
                   Store.bindings_of (id profile) (store w) with
             | Delivered, [b] =>
                 match status b with
                 | approved => [SelectTrades (trader_id b)]
                 | pending => []
                 end
             | _, _ => []
             end)%list.
Proof.
  unfold_load.
  destruct (hd Delivered (transport w)) eqn:Et; cbn; try reflexivity.
  destruct (Store.bindings_of (id profile) (store w)) as [|b [|b2 r]] eqn:Eb;
    cbn; try reflexivity.
  destruct (status b) eqn:Es; cbn; [reflexivity|].
  destruct (hd Delivered (tl (transport w))); cbn;
    now rewrite <- app_assoc.
Qed.

(** X3. What the first load shows when every request is delivered: the
    skeleton while there is no profile (no request is made), the pending card
    for a pending binding, the dashboard with the trader's statistics and
    first five trades for an approved one, and the binding form -- its button
    disabled -- when the investor has no binding or the single-row query
    matches several. *)
Theorem first_load_screen (profile : option User) (s : Store.t) :
  render (view (exec (onProfile profile) (mount s [])))
  = match profile with
    | None => Skeleton
    | Some p =>
        match Store.bindings_of (id p) s with
        | [b] =>
            match status b with
            | pending => PendingCard (snd (Store.joined_trader s b))
            | approved =>
                Dashboard (snd (Store.joined_trader s b))
                          (stats_of (ledger (trader_id b) s))
                          (firstn 5 (ledger (trader_id b) s))
            end
        | _ => BindingForm "" true
        end
    end
  /\ (profile = None -> requests (exec (onProfile profile) (mount s [])) = []).
Proof.
  split.
  - destruct profile as [p|]; [|reflexivity].
    unfold_load.
    destruct (Store.bindings_of (id p) s) as [|b [|b2 r]] eqn:E; cbn;
      try reflexivity.
    destruct (status b) eqn:Es; cbn; reflexivity.
  - intros ->. reflexivity.
Qed.

Lemma first_load_screen_witness :
  requests (exec (onProfile None) (mount approved_store [])) = []
  /\ render (view (exec (onProfile (Some bob)) (mount approved_store [])))
     = Dashboard (Some alice) (mkStats 2 250 5) [trade_a; trade_b].
Proof.
  split.
  - exact (proj2 (first_load_screen None approved_store) eq_refl).
  - rewrite (proj1 (first_load_screen (Some bob) approved_store)). reflexivity.
Defined.

(** X4. A load that gets no single binding row -- the request fails, or the
    investor has no binding, or several rows match -- changes nothing in the
    view but the loading flag: in particular it never resets a binding status
    or a bound trader shown before.  Only a rejected request is logged. *)
Theorem checkExistingBinding_without_row_keeps_view (profile : User) (w : World) :
  hd Delivered (transport w) <> Delivered
  \/ length (Store.bindings_of (id profile) (store w)) <> 1%nat ->
  view (exec (checkExistingBinding profile) w)
  = mkView (traderUid (view w)) (boundTrader (view w)) (bindingStatus (view w))
           (traderStats (view w)) (recentTrades (view w)) false
           (submitting (view w))
  /\ requests (exec (checkExistingBinding profile) w)
     = (requests w ++ [SelectBinding (id profile)])%list
  /\ console (exec (checkExistingBinding profile) w)
     = match hd Delivered (transport w) with
       | Rejected e => (console w ++ [("Error checking binding:", e)])%list
       | _ => console w
       end.
Proof.
  intros H. unfold_load.
  destruct (hd Delivered (transport w)) eqn:Et; cbn.
  - destruct H as [H|H]; [congruence|].
    destruct (Store.bindings_of (id profile) (store w)) as [|b [|b2 r]] eqn:E;
      cbn in *; try congruence; repeat split.
  - repeat split.
  - repeat split.
Qed.

Lemma checkExistingBinding_without_row_keeps_view_witness :
  bindingStatus
    (view (exec (checkExistingBinding bob)
             (exec (checkExistingBinding bob)
                (mount pending_store [Delivered; ErrorReply unreachable]))))
  = bs_pending
  /\ console
       (exec (checkExistingBinding bob)
          (exec (checkExistingBinding bob)
             (mount pending_store [Delivered; ErrorReply unreachable])))
     = [].
Proof.
  destruct (checkExistingBinding_without_row_keeps_view bob
              (exec (checkExistingBinding bob)
                 (mount pending_store [Delivered; ErrorReply unreachable])))
    as (Hv & _ & Hc).
  - left. discriminate.
  - split; [rewrite Hv | rewrite Hc]; reflexivity.
Defined.

(* ===================================================================== *)
(** ** Further properties: requesting a binding *)
(* ===================================================================== *)

Lemma all_delivered_hd (l : list Transport) :
  all_delivered l -> hd Delivered l = Delivered.
Proof. destruct 1; simpl; auto. Qed.

Lemma all_delivered_tl (l : list Transport) :
  all_delivered l -> all_delivered (tl l).
Proof. destruct 1; simpl; [constructor | assumption]. Qed.

(** The world a delivered, successful request leaves behind. *)
Lemma handleBindingRequest_sent (profile : User) (w : World) (tr : User) :
  JsString.trim (traderUid (view w)) <> "" ->
  Store.traders_with_uid (entered_code w) (store w) = [tr] ->
  Store.bindings_of (id profile) (store w) = [] ->
  hd Delivered (transport w) = Delivered ->
  hd Delivered (tl (transport w)) = Delivered ->
  exec (handleBindingRequest profile) w
  = mkWorld
      (Store.mk (Store.users (store w))
                (Store.bindings (store w) ++ [mkBinding (id tr) (id profile) pending])
                (Store.trades (store w)))
      (tl (tl (transport w)))
      (requests w ++ [SelectTrader (entered_code w);
                      InsertBinding (id tr) (id profile)])
      (mkView "" (Some tr) bs_pending (traderStats (view w))
              (recentTrades (view w)) (loading (view w)) false)
      (toasts w ++ [toast_request_sent tr]) (console w).
Proof.
  intros Hcode Htr Hfree Hd1 Hd2. apply nonblank_truthy in Hcode.
  unfold_handler. rewrite Hcode. cbn. rewrite Hd1, Htr. cbn.
  rewrite Hd2, Hfree. cbn. now rewrite <- app_assoc.
Qed.

(** The world a delivered request leaves behind when the investor is bound. *)
Lemma handleBindingRequest_refused (profile : User) (w : World) (tr : User) :
  JsString.trim (traderUid (view w)) <> "" ->
  Store.traders_with_uid (entered_code w) (store w) = [tr] ->
  Store.bindings_of (id profile) (store w) <> [] ->
  hd Delivered (transport w) = Delivered ->
  hd Delivered (tl (transport w)) = Delivered ->
  exec (handleBindingRequest profile) w
  = mkWorld
      (store w) (tl (tl (transport w)))
      (requests w ++ [SelectTrader (entered_code w);
                      InsertBinding (id tr) (id profile)])
      (mkView (traderUid (view w)) (boundTrader (view w)) (bindingStatus (view w))
              (traderStats (view w)) (recentTrades (view w)) (loading (view w))
              false)
      (toasts w ++ [toast_already_requested]) (console w).
Proof.
  intros Hcode Htr Hheld Hd1 Hd2. apply nonblank_truthy in Hcode.
  unfold_handler. rewrite Hcode. cbn. rewrite Hd1, Htr. cbn. rewrite Hd2.
  destruct (Store.bindings_of (id profile) (store w)) as [|b bs] eqn:E;
    [congruence|]. cbn. now rewrite <- app_assoc.
Qed.

(** X5. Whatever the outcome, the only row a call may add to the store is
    one pending binding of the calling investor, and only when that investor
    had none; the trader it names is a stored user with role trader whose
    identifier is the entered code.  Users, trades and the existing bindings
    are never modified or removed. *)
Theorem handleBindingRequest_store_footprint (profile : User) (w : World) :
  Store.users (store (exec (handleBindingRequest profile) w)) = Store.users (store w)
  /\ Store.trades (store (exec (handleBindingRequest profile) w))
     = Store.trades (store w)
  /\ (Store.bindings (store (exec (handleBindingRequest profile) w))
      = Store.bindings (store w)
      \/ exists tr : User,
          In tr (Store.users (store w))
          /\ role tr = Trader
          /\ trader_uid tr = Some (entered_code w)
          /\ Store.bindings_of (id profile) (store w) = []
          /\ Store.bindings (store (exec (handleBindingRequest profile) w))
             = (Store.bindings (store w)
                  ++ [mkBinding (id tr) (id profile) pending])%list).
Proof.
  unfold_handler.
  repeat step_handler; repeat split; auto.
  right.
  match goal with
  | H : Store.traders_with_uid ?c ?s = [?u] |- _ =>
      exists u;
      destruct (traders_with_uid_sound c s u) as [Hr Hu]; [rewrite H; now left|];
      assert (Hin : In u (Store.traders_with_uid c s)) by (rewrite H; now left);
      apply filter_In in Hin
  end.
  repeat split; tauto.
Qed.


(** X7. A call never leaves the form in its submitting state: once the code
    passes the blank test the flag is reset on every path, also when a
    request is rejected or the insert fails with an unexpected error; a blank
    code leaves the flag alone.  The loading flag, the statistics and the
    recent trades are never touched. *)
Theorem handleBindingRequest_releases_submitting (profile : User) (w : World) :
  submitting (view (exec (handleBindingRequest profile) w))
  = (if JsString.truthy (JsString.trim (traderUid (view w)))
     then false else submitting (view w))
  /\ loading (view (exec (handleBindingRequest profile) w)) = loading (view w)
  /\ traderStats (view (exec (handleBindingRequest profile) w))
     = traderStats (view w)
  /\ recentTrades (view (exec (handleBindingRequest profile) w))
     = recentTrades (view w).
Proof.
  unfold_handler.
  destruct (JsString.truthy (JsString.trim (traderUid (view w)))) eqn:E; cbn;
    repeat step_handler; repeat split.
Qed.

(** X8. When the form is rendered with its button enabled, the click passes
    the handler's own blank test: the trader lookup is requested, so the
    "Please enter a trader UID" refusal cannot be reached through the
    button. *)
Theorem enabled_button_reaches_lookup (profile : User) (w : World) (uid : string) :
  render (view w) = BindingForm uid false ->
  uid = traderUid (view w)
  /\ bindingStatus (view w) = bs_none
  /\ exists more,
      requests (exec (handleBindingRequest profile) w)
      = (requests w ++ SelectTrader (entered_code w) :: more)%list.
Proof.
  unfold render. intros H.
  destruct (loading (view w)); [discriminate|].
  destruct (bindingStatus (view w)); try discriminate.
  injection H as Hu Hd. apply orb_false_iff in Hd. destruct Hd as [_ Hd].
  apply negb_false_iff in Hd.
  repeat split; [now symmetry|].
  unfold_handler. rewrite Hd. cbn.
  repeat step_handler;
    try (exists []; reflexivity);
    (eexists; rewrite <- app_assoc; reflexivity).
Qed.

Lemma enabled_button_reaches_lookup_witness :
  exists more,
    requests (exec (handleBindingRequest bob)
                (type_uid "zzz" (exec (checkExistingBinding bob) (mount open_store []))))
    = SelectBinding "u-bob" :: SelectTrader "ZZZ" :: more.
Proof.
  destruct (enabled_button_reaches_lookup bob
              (type_uid "zzz" (exec (checkExistingBinding bob) (mount open_store [])))
              "zzz" eq_refl) as (_ & _ & more & Hreq).
  exists more. exact Hreq.
Defined.

(** X9. The requests of one call: none, or the trader lookup alone, or the
    lookup followed by one insert that names a trader the lookup matched and
    the calling investor.  The handler never queries the bindings or the
    trades, and never inserts without a resolved lookup. *)
Theorem handleBindingRequest_requests (profile : User) (w : World) :
  requests (exec (handleBindingRequest profile) w) = requests w
  \/ requests (exec (handleBindingRequest profile) w)
     = (requests w ++ [SelectTrader (entered_code w)])%list
  \/ exists tr : User,
      hd Delivered (transport w) = Delivered
      /\ Store.traders_with_uid (entered_code w) (store w) = [tr]
      /\ requests (exec (handleBindingRequest profile) w)
         = (requests w ++ [SelectTrader (entered_code w);
                           InsertBinding (id tr) (id profile)])%list.
Proof.
  unfold_handler.
  repeat step_handler;
    first [ left; reflexivity
          | right; left; reflexivity
          | right; right; eexists; repeat split; now rewrite <- app_assoc ].
Qed.

(** X10. Submitting twice: after a request that succeeded, a second request
    with the same code -- from any view of the same store, such as a second
    click or another tab still showing the form -- is refused as already
    requested, and the investor ends with exactly the one pending binding. *)
Theorem second_submit_is_refused (profile : User) (w w2 : World) (tr : User) :
  JsString.trim (traderUid (view w)) <> "" ->
  Store.traders_with_uid (entered_code w) (store w) = [tr] ->
  Store.bindings_of (id profile) (store w) = [] ->
  all_delivered (transport w) ->
  store w2 = store (exec (handleBindingRequest profile) w) ->
  traderUid (view w2) = traderUid (view w) ->
  all_delivered (transport w2) ->
  toasts (exec (handleBindingRequest profile) w)
  = (toasts w ++ [toast_request_sent tr])%list
  /\ toasts (exec (handleBindingRequest profile) w2)
     = (toasts w2 ++ [toast_already_requested])%list
  /\ store (exec (handleBindingRequest profile) w2) = store w2
  /\ Store.bindings_of (id profile) (store (exec (handleBindingRequest profile) w2))
     = [mkBinding (id tr) (id profile) pending]
  /\ bindingStatus (view (exec (handleBindingRequest profile) w2))
     = bindingStatus (view w2).
Proof.
  intros Hcode Htr Hfree Hdel Hstore Huid Hdel2.
  pose proof (all_delivered_hd _ Hdel) as Hd1.
  pose proof (all_delivered_hd _ (all_delivered_tl _ Hdel)) as Hd2.
  pose proof (handleBindingRequest_sent profile w tr Hcode Htr Hfree Hd1 Hd2) as E1.
  rewrite E1 in Hstore. cbn [store] in Hstore. rewrite E1. cbn [toasts].
  assert (Hheld : Store.bindings_of (id profile) (store w2)
                  = [mkBinding (id tr) (id profile) pending]).
  { rewrite Hstore, bindings_of_app, Hfree. simpl. now rewrite String.eqb_refl. }
  assert (Hk : entered_code w2 = entered_code w).
  { unfold entered_code. now rewrite Huid. }
  assert (Htr2 : Store.traders_with_uid (entered_code w2) (store w2) = [tr]).
  { rewrite Hk, Hstore. exact Htr. }
  assert (Hcode2 : JsString.trim (traderUid (view w2)) <> "") by now rewrite Huid.
  assert (Hne : Store.bindings_of (id profile) (store w2) <> [])
    by (rewrite Hheld; discriminate).
  rewrite (handleBindingRequest_refused profile w2 tr Hcode2 Htr2 Hne
             (all_delivered_hd _ Hdel2)
             (all_delivered_hd _ (all_delivered_tl _ Hdel2))).
  cbn. repeat split. exact Hheld.
Qed.

Lemma second_submit_is_refused_witness :
  toasts (exec (handleBindingRequest bob)
            (type_uid "abc12345"
               (exec (handleBindingRequest bob)
                  (type_uid "abc12345" (mount open_store [])))))
  = [toast_request_sent alice; toast_already_requested].
Proof.
  destruct (second_submit_is_refused bob
              (type_uid "abc12345" (mount open_store []))
              (type_uid "abc12345"
                 (exec (handleBindingRequest bob)
                    (type_uid "abc12345" (mount open_store []))))
              alice) as (_ & H2 & _);
    [ discriminate | reflexivity | reflexivity | constructor
    | reflexivity | reflexivity | constructor | exact H2 ].
Defined.

(** X11. Request, then reload: after a request that succeeded, loading the
    dashboard afresh from the resulting store finds the new binding and shows
    the pending card for the same trader, provided the trader's id designates
    that user row. *)
Theorem request_then_reload_shows_pending (profile : User) (w : World) (tr : User) :
  JsString.trim (traderUid (view w)) <> "" ->
  Store.traders_with_uid (entered_code w) (store w) = [tr] ->
  Store.bindings_of (id profile) (store w) = [] ->
  hd Delivered (transport w) = Delivered ->
  hd Delivered (tl (transport w)) = Delivered ->
  find (fun u => String.eqb (id u) (id tr)) (Store.users (store w)) = Some tr ->
  render (view (exec (checkExistingBinding profile)
                     (mount (store (exec (handleBindingRequest profile) w)) [])))
  = PendingCard (Some tr)
  /\ requests (exec (checkExistingBinding profile)
                    (mount (store (exec (handleBindingRequest profile) w)) []))
     = [SelectBinding (id profile)].
Proof.
  intros Hcode Htr Hfree Hd1 Hd2 Hfind.
  rewrite (handleBindingRequest_sent profile w tr Hcode Htr Hfree Hd1 Hd2).
  cbn [store].
  remember (Store.mk (Store.users (store w))
              (Store.bindings (store w) ++ [mkBinding (id tr) (id profile) pending])
              (Store.trades (store w))) as s1 eqn:Es1.
  assert (Hb : Store.bindings_of (id profile) s1
               = [mkBinding (id tr) (id profile) pending]).
  { subst s1. rewrite bindings_of_app, Hfree. simpl. now rewrite String.eqb_refl. }
  assert (Hu : Store.users s1 = Store.users (store w)) by now subst s1.
  unfold_load. rewrite Hb. cbn.
  unfold Store.joined_trader. cbn. rewrite Hu, Hfind. split; reflexivity.
Qed.

Lemma request_then_reload_shows_pending_witness :
  render (view (exec (checkExistingBinding bob)
                  (mount (store (exec (handleBindingRequest bob)
                                   (type_uid "abc12345" (mount open_store []))))
                         [])))
  = PendingCard (Some alice).
Proof.
  apply (request_then_reload_shows_pending bob
           (type_uid "abc12345" (mount open_store [])) alice);
    try reflexivity; discriminate.
Defined.

(* ===================================================================== *)
(** ** Further properties: the statistics and the recent trades *)
(* ===================================================================== *)

Arguments stats_of : simpl never.
Arguments recent_of : simpl never.


Lemma sorted_app_newer (l1 l2 : list Trade) :
  StronglySorted newer_first (l1 ++ l2) ->
  forall a b, In a l1 -> In b l2 -> newer_first a b.
Proof.
  induction l1 as [|h r IH]; simpl; intros Hs a b Ha Hb; [contradiction|].
  inversion Hs as [|? ? Hr Hh]; subst.
  destruct Ha as [<- | Ha].
  - rewrite Forall_forall in Hh. apply Hh. apply in_or_app. now right.
  - now apply IH.
Qed.

Lemma recent_of_length (l : list Trade) :
  length (recent_of l) = Nat.min 5 (Z.to_nat (totalTrades (stats_of l))).
Proof.
  unfold recent_of, stats_of. cbn [totalTrades].
  now rewrite length_firstn, Nat2Z.id.
Qed.

(** X12. The totals depend on the order of the rows: the two loops add in
    ledger order with binary64 rounding, so two ledgers holding the same
    trades in another order can have different totals, while the count is
    the same.  Prices 2^53, 1, 1 total 2^53; prices 1, 1, 2^53 total
    2^53 + 2. *)
Theorem stats_depend_on_row_order :
  exists l l' : list Trade,
    Permutation l l'
    /\ totalTrades (stats_of l) = totalTrades (stats_of l')
    /\ totalValue (stats_of l) <> totalValue (stats_of l').
Proof.
  exists large_first, large_last. split; [|split].
  - unfold large_first, large_last. apply Permutation_map.
    eapply perm_trans; [apply perm_swap|]. apply perm_skip, perm_swap.
  - reflexivity.
  - intros H.
    pose proof (f_equal (fun x => Leibniz.eqb x 9007199254740992%float) H) as E.
    vm_compute in E. discriminate E.
Qed.

(** X13. The totals are accumulated in ledger order: one more row at the
    end of a ledger adds one to the count, its [price * quantity] to the
    value total and its [profit_loss || 0] to the profit/loss total of the
    ledger before it. *)
Theorem stats_of_append_row (l : list Trade) (t : Trade) :
  stats_of (l ++ [t])
  = mkStats (totalTrades (stats_of l) + 1)
            (totalValue (stats_of l) + price t * quantity t)
            (totalPnL (stats_of l) + or_zero (profit_loss t)).
Proof.
  unfold stats_of. cbn [totalTrades totalValue totalPnL].
  rewrite !fold_left_app, length_app, Nat2Z.inj_add. reflexivity.
Qed.

(** X14. The recent trades are the newest ones: after a delivered read,
    every trade shown as recent was created no earlier than any trade of
    the ledger left out of the list. *)
Theorem recent_trades_are_newest (traderId : string) (w : World) (a b : Trade) :
  hd Delivered (transport w) = Delivered ->
  In a (recentTrades (view (exec (fetchTraderData traderId) w))) ->
  In b (skipn 5 (ledger traderId (store w))) ->
  created_at b <= created_at a.
Proof.
  intros H. unfold exec.
  rewrite (fetchTraderData_delivered traderId w H).
  cbn [snd view recentTrades]. unfold recent_of. intros Ha Hb.
  apply (sorted_app_newer (firstn 5 (ledger traderId (store w)))
                          (skipn 5 (ledger traderId (store w)))); auto.
  rewrite firstn_skipn. apply order_desc_sorted.
Qed.

(** X15. In every state the handlers can produce, the recent list and the
    trade count agree: the list holds as many trades as the count, five at
    most (so it is empty exactly when the count is zero).  This holds
    initially and is kept by each handler on every path, failed reads
    included. *)
Theorem recent_matches_stats_invariant :
  recent_matches_stats initial_view
  /\ (forall (traderId : string) (w : World),
         recent_matches_stats (view w) ->
         recent_matches_stats (view (exec (fetchTraderData traderId) w)))
  /\ (forall (profile : User) (w : World),
         recent_matches_stats (view w) ->
         recent_matches_stats (view (exec (checkExistingBinding profile) w)))
  /\ (forall (profile : User) (w : World),
         recent_matches_stats (view w) ->
         recent_matches_stats (view (exec (handleBindingRequest profile) w))).
Proof.
  unfold recent_matches_stats. repeat split.
  - intros traderId w H. unfold_load.
    repeat step_load; try exact H. apply recent_of_length.
  - intros profile w H. unfold_load.
    repeat step_load; try exact H. apply recent_of_length.
  - intros profile w H. unfold_handler.
    repeat step_handler; exact H.
Qed.

Lemma recent_matches_stats_invariant_witness :
  recent_matches_stats
    (view (exec (handleBindingRequest bob)
             (exec (checkExistingBinding bob) (mount approved_store [])))).
Proof.
  destruct recent_matches_stats_invariant as (H0 & _ & Hload & Hreq).
  apply Hreq, Hload. exact H0.
Defined.

(** X16. [fetchTraderData] only reads: on every path it completes, makes
    exactly one request -- the ledger of the given trader --, and leaves the
    store, the toasts, the binding status, the bound trader, the entered
    code and the two flags as they were. *)
Theorem fetchTraderData_only_reads (traderId : string) (w : World) :
  completes (fetchTraderData traderId) w = true
  /\ requests (exec (fetchTraderData traderId) w)
     = (requests w ++ [SelectTrades traderId])%list
  /\ store (exec (fetchTraderData traderId) w) = store w
  /\ toasts (exec (fetchTraderData traderId) w) = toasts w
  /\ bindingStatus (view (exec (fetchTraderData traderId) w))
     = bindingStatus (view w)
  /\ boundTrader (view (exec (fetchTraderData traderId) w)) = boundTrader (view w)
  /\ traderUid (view (exec (fetchTraderData traderId) w)) = traderUid (view w)
  /\ loading (view (exec (fetchTraderData traderId) w)) = loading (view w)
  /\ submitting (view (exec (fetchTraderData traderId) w)) = submitting (view w).
Proof.
  unfold_load. repeat step_load; repeat split.
Qed.

Lemma recent_trades_are_newest_witness :
  recentTrades (view (exec (fetchTraderData "u-alice") (mount busy_store [])))
  = map (fun n => mkTrade "t" "u-alice" "BTC" "crypto" 10 1 None n) [6; 5; 4; 3; 2]
  /\ created_at (mkTrade "t" "u-alice" "BTC" "crypto" 10 1 None 1)
     <= created_at (mkTrade "t" "u-alice" "BTC" "crypto" 10 1 None 2).
Proof.
  split; [reflexivity|].
  apply (recent_trades_are_newest "u-alice" (mount busy_store [])).
  - reflexivity.
  - simpl. tauto.
  - simpl. tauto.
Defined.

(* ===================================================================== *)
(** ** Further properties: what the entered code may look like *)
(* ===================================================================== *)

Lemma trimEnd_idempotent (s : string) :
  JsString.trimEnd (JsString.trimEnd s) = JsString.trimEnd s.
Proof.
  induction s as [|c r IH]; simpl; [reflexivity|].
  destruct (JsString.trimEnd r) as [|c' r'] eqn:E.
  - destruct (JsString.is_space c) eqn:Ec; simpl; [reflexivity|].
    now rewrite Ec.
  - simpl in *. now rewrite IH.
Qed.

(** A string that [trimStart] returns is empty or starts with a character
    that is not white space, and [trimEnd] keeps such a start. *)
Lemma trimStart_trimEnd_trimStart (s : string) :
  JsString.trimStart (JsString.trimEnd (JsString.trimStart s))
  = JsString.trimEnd (JsString.trimStart s).
Proof.
  induction s as [|c r IH]; simpl; [reflexivity|].
  destruct (JsString.is_space c) eqn:Ec; [exact IH|].
  simpl. destruct (JsString.trimEnd r); rewrite ?Ec; simpl; now rewrite Ec.
Qed.

Lemma trim_idempotent (s : string) :
  JsString.trim (JsString.trim s) = JsString.trim s.
Proof.
  unfold JsString.trim.
  now rewrite trimStart_trimEnd_trimStart, trimEnd_idempotent.
Qed.

Lemma is_lower_toUpperChar (c : ascii) :
  JsString.is_lower (JsString.toUpperChar c) = false.
Proof. destruct c as [[] [] [] [] [] [] [] []]; reflexivity. Qed.

Lemma no_lower_toUpperCase (s : string) :
  no_lower (JsString.toUpperCase s) = true.
Proof.
  unfold no_lower, JsString.toUpperCase.
  induction s as [|c r IH]; simpl; [reflexivity|].
  now rewrite is_lower_toUpperChar, IH.
Qed.

(** X17. White space around the entered code is ignored: a code and the
    same code with its surrounding white space removed are looked up with the
    same key and the request proceeds identically (same requests to the
    store, same resulting store, toasts, bound trader and binding status). *)
Theorem handleBindingRequest_ignores_surrounding_space
  (profile : User) (w : World) (c : string) :
  entered_code (type_uid c w) = entered_code (type_uid (JsString.trim c) w)
  /\ requests (exec (handleBindingRequest profile) (type_uid c w))
     = requests (exec (handleBindingRequest profile) (type_uid (JsString.trim c) w))
  /\ store (exec (handleBindingRequest profile) (type_uid c w))
     = store (exec (handleBindingRequest profile) (type_uid (JsString.trim c) w))
  /\ toasts (exec (handleBindingRequest profile) (type_uid c w))
     = toasts (exec (handleBindingRequest profile) (type_uid (JsString.trim c) w))
  /\ boundTrader (view (exec (handleBindingRequest profile) (type_uid c w)))
     = boundTrader
         (view (exec (handleBindingRequest profile) (type_uid (JsString.trim c) w)))
  /\ bindingStatus (view (exec (handleBindingRequest profile) (type_uid c w)))
     = bindingStatus
         (view (exec (handleBindingRequest profile) (type_uid (JsString.trim c) w))).
Proof.
  unfold_handler. rewrite (trim_idempotent c).
  repeat step_handler; repeat split.
Qed.

(** X18. Only the entered code is upper-cased, never the stored identifier:
    a user whose stored identifier contains a lower-case letter is matched by
    no entered code, so no request can resolve to that user. *)
Theorem lower_case_identifier_never_matches (w : World) (u : User) (uid : string) :
  trader_uid u = Some uid ->
  no_lower uid = false ->
  ~ In u (Store.traders_with_uid (entered_code w) (store w)).
Proof.
  intros Hu Hlow Hin.
  apply traders_with_uid_sound in Hin. destruct Hin as [_ Hk].
  rewrite Hu in Hk. injection Hk as ->.
  unfold entered_code in Hlow. rewrite no_lower_toUpperCase in Hlow.
  discriminate.
Qed.

Lemma lower_case_identifier_never_matches_witness :
  ~ In (mkUser "u-carol" "carol" Trader "USD" (Some "abc12345"))
       (Store.traders_with_uid
          (entered_code
             (type_uid "abc12345"
                (mount (Store.mk [mkUser "u-carol" "carol" Trader "USD"
                                         (Some "abc12345")] [] []) [])))
          (Store.mk [mkUser "u-carol" "carol" Trader "USD" (Some "abc12345")] [] [])).
Proof.
  apply (lower_case_identifier_never_matches
           (type_uid "abc12345"
              (mount (Store.mk [mkUser "u-carol" "carol" Trader "USD"
                                       (Some "abc12345")] [] []) []))
           (mkUser "u-carol" "carol" Trader "USD" (Some "abc12345"))
           "abc12345");
    reflexivity.
Defined.
